(** * ptrace_wrapper.c: the native tracing shim of DebuggerNetMcp

    A shallow embedding of [src/native/src/ptrace_wrapper.c] and the
    properties of its five exported functions.

    The C functions are thin wrappers over [ptrace(2)] and [waitpid(2)].
    They are embedded as computations in a state monad over a [world]: the
    caller-visible process state ([errno], the memory holding [int] cells)
    together with the state of the operating system and a log of the system
    calls issued so far.  The operating system is a parameter (class
    [Kernel]); two instances are given below, a scripted one that replays
    chosen replies and a small reference model of one tracer and its
    tracees.  The log of system calls is there to state which calls a
    function makes; no function of the shim reads it. *)

From Stdlib Require Import ZArith Lia List.
From stdpp Require Import base option gmap.
Import ListNotations.

Local Open Scope Z_scope.

(** ** C integers and pointers *)

Module CInt.

(** Two's complement wrap-around of [x] to a signed [bits]-bit integer. *)
Definition wrap (bits x : Z) : Z :=
  (x + 2 ^ (bits - 1)) mod 2 ^ bits - 2 ^ (bits - 1).

Definition INT_MIN : Z := - 2 ^ 31.
Definition INT_MAX : Z := 2 ^ 31 - 1.

Definition in_int (x : Z) : Prop := INT_MIN <= x <= INT_MAX.

(** [(int) x] *)
Definition to_int (x : Z) : Z := wrap 32 x.
(** [(long) x], 64 bits on the LP64 targets of the shim *)
Definition to_long (x : Z) : Z := wrap 64 x.
(** [(void * ) l]: the address whose bit pattern is that of [l] *)
Definition to_ptr (l : Z) : Z := l mod 2 ^ 64.
(** unary minus on [int] *)
Definition neg_int (x : Z) : Z := to_int (- x).

Definition NULL : Z := 0.

End CInt.
Import CInt.

(** ** Constants of the system headers

    [<errno.h>], [<sys/ptrace.h>] and [<sys/wait.h>] are not part of the
    repository; the values are those of Linux. *)

Definition EPERM : Z := 1.
Definition ESRCH : Z := 3.
Definition EINTR : Z := 4.
Definition EIO : Z := 5.
Definition ECHILD : Z := 10.
Definition EINVAL : Z := 22.

(** Largest value the kernel uses as an error code. *)
Definition MAX_ERRNO : Z := 4095.

(** An error code as [errno] holds it after a failed call. *)
Definition errno_ok (e : Z) : Prop := 1 <= e <= MAX_ERRNO.

(** The option bits of waitpid(2); the header spells the last three with
    two leading underscores. *)
Definition WNOHANG : Z := 1.
Definition WUNTRACED : Z := 2.
Definition WCONTINUED : Z := 8.
Definition WNOTHREAD : Z := 0x20000000.
Definition WALL : Z := 0x40000000.
Definition WCLONE : Z := 0x80000000.

Inductive ptrace_request : Set :=
| PTRACE_CONT
| PTRACE_ATTACH
| PTRACE_DETACH
| PTRACE_SEIZE
| PTRACE_INTERRUPT.

Definition request_code (r : ptrace_request) : Z :=
  match r with
  | PTRACE_CONT => 7
  | PTRACE_ATTACH => 16
  | PTRACE_DETACH => 17
  | PTRACE_SEIZE => 0x4206
  | PTRACE_INTERRUPT => 0x4207
  end.

(** ** The operating system *)

(** What the kernel answers to a tracing request. *)
Inductive sys_outcome : Set :=
| Done
| Failed (e : Z).

(** What the kernel answers to a wait: a child changed state, nothing has
    changed yet (only under [WNOHANG]), or an error. *)
Inductive wait_outcome : Set :=
| Changed (child wstatus : Z)
| NoChange
| WaitFailed (e : Z).

Class Kernel (K : Type) : Type := {
  k_ptrace : ptrace_request -> Z -> Z -> Z -> K -> sys_outcome * K;
  k_waitpid : Z -> Z -> K -> wait_outcome * K
}.

(** A system call as the kernel receives it. *)
Inductive syscall : Set :=
| Sys_ptrace (req : ptrace_request) (pid addr data : Z)
| Sys_waitpid (pid status flags : Z).

(** ** Process state and the state monad *)

Record world (K : Type) : Type := World {
  w_errno : Z;
  w_mem : gmap Z Z;
  w_kernel : K;
  w_calls : list syscall
}.
Arguments World {K} _ _ _ _.
Arguments w_errno {K} _.
Arguments w_mem {K} _.
Arguments w_kernel {K} _.
Arguments w_calls {K} _.

Definition M (K A : Type) : Type := world K -> A * world K.

Definition ret {K A} (a : A) : M K A := fun w => (a, w).

Definition bind {K A B} (c : M K A) (f : A -> M K B) : M K B :=
  fun w => let (a, w') := c w in f a w'.

Notation "'let*' x ':=' c 'in' k" := (bind c (fun x => k))
  (at level 10, x name, c at level 100, k at level 200).

Section Libc.

Context {K : Type} {kern : Kernel K}.

Definition set_errno (e : Z) (w : world K) : world K :=
  World e (w_mem w) (w_kernel w) (w_calls w).

Definition set_kernel (k : K) (w : world K) : world K :=
  World (w_errno w) (w_mem w) k (w_calls w).

Definition log_call (c : syscall) (w : world K) : world K :=
  World (w_errno w) (w_mem w) (w_kernel w) (w_calls w ++ [c]).

(** [*p = v] on an [int] cell *)
Definition store_int (p v : Z) (w : world K) : world K :=
  World (w_errno w) (<[p := v]> (w_mem w)) (w_kernel w) (w_calls w).

(** reading the lvalue [errno] *)
Definition errno : M K Z := fun w => (w_errno w, w).

(** [long ptrace(request, pid, addr, data)]: the tracing requests return
    0, and on error -1 with [errno] set. *)
Definition ptrace (req : ptrace_request) (pid addr data : Z) : M K Z :=
  fun w =>
    let (o, k') := k_ptrace req pid addr data (w_kernel w) in
    let w' := log_call (Sys_ptrace req pid addr data) (set_kernel k' w) in
    match o with
    | Done => (0, w')
    | Failed e => (-1, set_errno e w')
    end.

(** [pid_t waitpid(pid, wstatus, options)]: the pid of the child whose
    state changed, with the status stored through [wstatus] unless it is
    null; 0 when nothing has changed; on error -1 with [errno] set. *)
Definition waitpid (pid status flags : Z) : M K Z :=
  fun w =>
    let (o, k') := k_waitpid pid flags (w_kernel w) in
    let w' := log_call (Sys_waitpid pid status flags) (set_kernel k' w) in
    match o with
    | Changed child st =>
        (child, if status =? NULL then w' else store_int status st w')
    | NoChange => (0, w')
    | WaitFailed e => (-1, set_errno e w')
    end.

(** ** The shim *)

Definition dbg_attach (pid : Z) : M K Z :=
  let* r := ptrace PTRACE_SEIZE pid NULL NULL in
  if r =? -1 then let* e := errno in ret (neg_int e) else ret 0.

Definition dbg_detach (pid : Z) : M K Z :=
  let* r := ptrace PTRACE_DETACH pid NULL NULL in
  if r =? -1 then let* e := errno in ret (neg_int e) else ret 0.

Definition dbg_interrupt (pid : Z) : M K Z :=
  let* r := ptrace PTRACE_INTERRUPT pid NULL NULL in
  if r =? -1 then let* e := errno in ret (neg_int e) else ret 0.

Definition dbg_continue (pid sig : Z) : M K Z :=
  let* r := ptrace PTRACE_CONT pid NULL (to_ptr (to_long sig)) in
  if r =? -1 then let* e := errno in ret (neg_int e) else ret 0.

Definition dbg_wait (pid status flags : Z) : M K Z :=
  let* result := waitpid pid status flags in
  if result =? -1 then let* e := errno in ret (neg_int e) else ret (to_int result).

End Libc.

(** ** The five entry points as one type of calls *)

(** The four tracing primitives; the pid is given apart. *)
Inductive primitive : Set :=
| Attach
| Detach
| Interrupt
| Continue (sig : Z).

Inductive shim_call : Set :=
| Prim (p : primitive) (pid : Z)
| Wait (pid status flags : Z).

Definition prim_request (p : primitive) : ptrace_request :=
  match p with
  | Attach => PTRACE_SEIZE
  | Detach => PTRACE_DETACH
  | Interrupt => PTRACE_INTERRUPT
  | Continue _ => PTRACE_CONT
  end.

Definition prim_data (p : primitive) : Z :=
  match p with
  | Continue sig => to_ptr (to_long sig)
  | _ => NULL
  end.

(** The one system call a shim call stands for. *)
Definition call_syscall (c : shim_call) : syscall :=
  match c with
  | Prim p pid => Sys_ptrace (prim_request p) pid NULL (prim_data p)
  | Wait pid status flags => Sys_waitpid pid status flags
  end.

Section Calls.

Context {K : Type} {kern : Kernel K}.

Definition prim_run (p : primitive) (pid : Z) : M K Z :=
  match p with
  | Attach => dbg_attach pid
  | Detach => dbg_detach pid
  | Interrupt => dbg_interrupt pid
  | Continue sig => dbg_continue pid sig
  end.

Definition shim_run (c : shim_call) : M K Z :=
  match c with
  | Prim p pid => prim_run p pid
  | Wait pid status flags => dbg_wait pid status flags
  end.

(** The libc function behind a call, without the shim around it. *)
Definition libc_run (c : shim_call) : M K Z :=
  match c with
  | Prim p pid => ptrace (prim_request p) pid NULL (prim_data p)
  | Wait pid status flags => waitpid pid status flags
  end.

(** What the kernel answers to a tracing request in world [w]. *)
Definition ptrace_outcome (req : ptrace_request) (pid data : Z)
    (w : world K) : sys_outcome :=
  fst (k_ptrace req pid NULL data (w_kernel w)).

Definition prim_outcome (p : primitive) (pid : Z) (w : world K) : sys_outcome :=
  ptrace_outcome (prim_request p) pid (prim_data p) w.

(** What the kernel answers to a wait in world [w]. *)
Definition wait_result (pid flags : Z) (w : world K) : wait_outcome :=
  fst (k_waitpid pid flags (w_kernel w)).

Definition call_outcome (c : shim_call) (w : world K)
    : sys_outcome + wait_outcome :=
  match c with
  | Prim p pid => inl (prim_outcome p pid w)
  | Wait pid _ flags => inr (wait_result pid flags w)
  end.

End Calls.

(** ** Two kernels to run the shim on *)

(** A scripted kernel answers each system call with the next reply of a
    script, whatever the arguments; a call that finds no reply of its kind
    fails as on a system without the process. *)
Module Scripted.

Inductive reply : Set :=
| OnPtrace (o : sys_outcome)
| OnWait (o : wait_outcome).

Definition script : Set := list reply.

Definition s_ptrace (_ : ptrace_request) (_ _ _ : Z) (s : script)
    : sys_outcome * script :=
  match s with
  | OnPtrace o :: s' => (o, s')
  | _ => (Failed ESRCH, s)
  end.

Definition s_waitpid (_ _ : Z) (s : script) : wait_outcome * script :=
  match s with
  | OnWait o :: s' => (o, s')
  | _ => (WaitFailed ECHILD, s)
  end.

#[global] Instance kernel : Kernel script :=
  {| k_ptrace := s_ptrace; k_waitpid := s_waitpid |}.

(** A fresh process facing the script [s]. *)
Definition boot (s : script) : world script := World 0 ∅ s [].

End Scripted.

(** A reference kernel: one tracer and the processes it may trace, after
    ptrace(2) and waitpid(2).  The processes are no children of the
    tracer, which can wait for them only while it traces them.  The model
    is sequential: a tracee changes state only through the tracer's
    requests. *)
Module Ref.

Inductive tracee : Set :=
| Untraced                 (* alive and running, not traced by the caller *)
| Halted                   (* not traced, in a group-stop its parent has seen *)
| Seized                   (* traced and running *)
| Stopping (wstatus : Z)   (* traced and stopped, the stop not yet waited for *)
| Stopped.                 (* traced and stopped, the stop already reported *)

Abbreviation procs := (gmap Z tracee).

Definition SIGTRAP : Z := 5.
Definition SIGSTOP : Z := 19.
Definition NSIG : Z := 64.
Definition PTRACE_EVENT_STOP : Z := 128.

(** The wait status of a process stopped by [sig]. *)
Definition W_STOPCODE (sig : Z) : Z := Z.lor (Z.shiftl sig 8) 0x7f.

Definition r_ptrace (req : ptrace_request) (pid _ data : Z) (t : procs)
    : sys_outcome * procs :=
  match t !! pid with
  | None => (Failed ESRCH, t)
  | Some st =>
      match req, st with
      | PTRACE_SEIZE, Untraced => (Done, <[pid := Seized]> t)
      | PTRACE_SEIZE, Halted =>
          (Done,
           <[pid := Stopping
                      (W_STOPCODE (Z.lor SIGSTOP (Z.shiftl PTRACE_EVENT_STOP 8)))]> t)
      | PTRACE_ATTACH, (Untraced | Halted) =>
          (Done, <[pid := Stopping (W_STOPCODE SIGSTOP)]> t)
      | (PTRACE_SEIZE | PTRACE_ATTACH), _ => (Failed EPERM, t)
      | PTRACE_INTERRUPT, Seized =>
          (Done,
           <[pid := Stopping
                      (W_STOPCODE (Z.lor SIGTRAP (Z.shiftl PTRACE_EVENT_STOP 8)))]> t)
      | PTRACE_INTERRUPT, (Stopping _ | Stopped) => (Done, t)
      | PTRACE_CONT, (Stopping _ | Stopped) =>
          if data <=? NSIG then (Done, <[pid := Seized]> t)
          else (Failed EIO, t)
      | PTRACE_DETACH, (Stopping _ | Stopped) => (Done, <[pid := Untraced]> t)
      | _, _ => (Failed ESRCH, t)
      end
  end.

(** The option bits that waitpid(2) knows. *)
Definition wait_options : Z :=
  Z.lor WNOHANG (Z.lor WUNTRACED (Z.lor WCONTINUED
    (Z.lor WNOTHREAD (Z.lor WALL WCLONE)))).

(** Unknown option bits are refused.  A wait that finds nothing to report
    returns at once under [WNOHANG]; without it the call would sleep, and
    as no tracee moves on its own here it ends the other way waitpid(2)
    allows, interrupted by a signal. *)
Definition r_waitpid (pid flags : Z) (t : procs) : wait_outcome * procs :=
  if negb (Z.ldiff (flags mod 2 ^ 32) wait_options =? 0)
  then (WaitFailed EINVAL, t)
  else
    match t !! pid with
    | Some (Stopping st) => (Changed pid st, <[pid := Stopped]> t)
    | Some (Seized | Stopped) =>
        if Z.land flags WNOHANG =? WNOHANG then (NoChange, t)
        else (WaitFailed EINTR, t)
    | _ => (WaitFailed ECHILD, t)
    end.

#[global] Instance kernel : Kernel procs :=
  {| k_ptrace := r_ptrace; k_waitpid := r_waitpid |}.

Definition boot (t : procs) : world procs := World 0 ∅ t [].

End Ref.

(** ** What a shim call computes *)

Section Forwarded.

Context {K : Type} {kern : Kernel K}.

(** The world after the kernel has served a call, before the libc wrapper
    reports the outcome. *)
Definition served (c : syscall) (k' : K) (w : world K) : world K :=
  log_call c (set_kernel k' w).

(** The result of a tracing primitive, read off the kernel's answer. *)
Definition forwarded (req : ptrace_request) (pid data : Z) (w : world K)
    : Z * world K :=
  let w' := served (Sys_ptrace req pid NULL data)
              (snd (k_ptrace req pid NULL data (w_kernel w))) w in
  match ptrace_outcome req pid data w with
  | Done => (0, w')
  | Failed e => (neg_int e, set_errno e w')
  end.

(** An answer of the kernel that names a child names it by its pid, a
    positive number. *)
Definition names_a_pid (o : sys_outcome + wait_outcome) : Prop :=
  match o with
  | inr (Changed child _) => 0 < child
  | _ => True
  end.

(** A wait outcome within the ranges of [pid_t] and of the error codes. *)
Definition wait_outcome_ok (o : wait_outcome) : Prop :=
  match o with
  | Changed child _ => 0 < child <= INT_MAX
  | NoChange => True
  | WaitFailed e => errno_ok e
  end.

End Forwarded.

(** ** A caller making several calls *)

Section Sequences.

Context {K : Type} {kern : Kernel K}.

(** The calls [cs] made one after the other, with their results in order. *)
Fixpoint run_calls (cs : list shim_call) : M K (list Z) :=
  match cs with
  | [] => ret []
  | c :: cs' =>
      let* r := shim_run c in
      let* rs := run_calls cs' in
      ret (r :: rs)
  end.

(** The same calls made on libc, without the shim. *)
Fixpoint run_libc (cs : list shim_call) : M K (list Z) :=
  match cs with
  | [] => ret []
  | c :: cs' =>
      let* r := libc_run c in
      let* rs := run_libc cs' in
      ret (r :: rs)
  end.

End Sequences.

(** The status variables that the calls [cs] hand to the kernel. *)
Fixpoint status_cells (cs : list shim_call) : list Z :=
  match cs with
  | [] => []
  | Prim _ _ :: cs' => status_cells cs'
  | Wait _ status _ :: cs' =>
      if status =? NULL then status_cells cs' else status :: status_cells cs'
  end.

(** ** Worlds for the runs *)

(** The caller's status variable in the runs below. *)
Definition status_var : Z := 0x7ffc0000.

(** Scenario 5 of the specification up to the wait: pid 1234 has been
    seized and interrupted, its stop has not been waited for. *)
Definition interrupted_1234 : world Ref.procs :=
  let w0 := Ref.boot {[ 1234 := Ref.Untraced ]} in
  snd (dbg_interrupt 1234 (snd (dbg_attach 1234 w0))).

(** The kernel of [interrupted_1234] with a fresh process over it, whose
    memory holds 77 in the cell after the status variable. *)
Definition neighbour_77 : world Ref.procs :=
  World 0 {[ status_var + 4 := 77 ]} (w_kernel interrupted_1234) [].

(** The calls of scenario 5 of the specification. *)
Definition scenario_5 : list shim_call :=
  [Prim Attach 1234; Prim Interrupt 1234; Wait 1234 status_var 0;
   Prim (Continue 0) 1234; Prim Detach 1234].

(** * Properties *)

(** ** C integers *)

Lemma to_int_id x : in_int x -> to_int x = x.
Proof.
  unfold in_int, INT_MIN, INT_MAX, to_int, wrap. intros H.
  rewrite Z.mod_small; lia.
Qed.

Lemma to_long_int x : in_int x -> to_long x = x.
Proof.
  unfold in_int, INT_MIN, INT_MAX, to_long, wrap. intros H.
  rewrite Z.mod_small; lia.
Qed.

Lemma to_long_to_ptr x : in_int x -> to_long (to_ptr x) = x.
Proof.
  unfold in_int, INT_MIN, INT_MAX, to_long, to_ptr, wrap. intros H.
  destruct (Z_lt_le_dec x 0) as [Hneg | Hpos].
  - replace (x mod 2 ^ 64) with (x + 2 ^ 64).
    + replace (x + 2 ^ 64 + 2 ^ (64 - 1)) with (x + 2 ^ 63 + 1 * 2 ^ 64) by lia.
      rewrite Z.mod_add by lia. rewrite Z.mod_small; lia.
    + apply Z.mod_unique with (q := -1); lia.
  - rewrite (Z.mod_small x) by lia. rewrite Z.mod_small; lia.
Qed.

Lemma neg_int_small e : 0 < e <= INT_MAX -> neg_int e = - e.
Proof.
  intros H. unfold neg_int. apply to_int_id.
  unfold in_int, INT_MIN, INT_MAX in *. lia.
Qed.

(** ** The shim over any kernel *)

Section Forwarding.

Context {K : Type} {kern : Kernel K}.

Ltac step_kernel :=
  unfold forwarded, ptrace_outcome, wait_result, served, bind, ptrace, waitpid,
    errno, ret;
  repeat match goal with
    | |- context [k_ptrace ?r ?p ?a ?d ?k] =>
        destruct (k_ptrace r p a d k) as [[|?e] ?k']
    | |- context [k_waitpid ?p ?f ?k] =>
        destruct (k_waitpid p f k) as [[?child ?st| |?e] ?k']
    end; cbn.

Lemma dbg_attach_run pid w :
  dbg_attach pid w = forwarded PTRACE_SEIZE pid NULL w.
Proof. unfold dbg_attach. step_kernel; reflexivity. Qed.

Lemma dbg_detach_run pid w :
  dbg_detach pid w = forwarded PTRACE_DETACH pid NULL w.
Proof. unfold dbg_detach. step_kernel; reflexivity. Qed.

Lemma dbg_interrupt_run pid w :
  dbg_interrupt pid w = forwarded PTRACE_INTERRUPT pid NULL w.
Proof. unfold dbg_interrupt. step_kernel; reflexivity. Qed.

Lemma dbg_continue_run pid sig w :
  dbg_continue pid sig w = forwarded PTRACE_CONT pid (to_ptr (to_long sig)) w.
Proof. unfold dbg_continue. step_kernel; reflexivity. Qed.

Lemma prim_run_forwarded p pid w :
  prim_run p pid w = forwarded (prim_request p) pid (prim_data p) w.
Proof.
  destruct p; cbn [prim_run prim_request prim_data].
  - apply dbg_attach_run.
  - apply dbg_detach_run.
  - apply dbg_interrupt_run.
  - apply dbg_continue_run.
Qed.

Lemma forwarded_calls req pid data w :
  w_calls (snd (forwarded req pid data w))
  = w_calls w ++ [Sys_ptrace req pid NULL data].
Proof. unfold forwarded. destruct (ptrace_outcome req pid data w); reflexivity. Qed.

Lemma forwarded_kernel req pid data w :
  w_kernel (snd (forwarded req pid data w))
  = snd (k_ptrace req pid NULL data (w_kernel w)).
Proof. unfold forwarded. destruct (ptrace_outcome req pid data w); reflexivity. Qed.

Lemma forwarded_mem req pid data w :
  w_mem (snd (forwarded req pid data w)) = w_mem w.
Proof. unfold forwarded. destruct (ptrace_outcome req pid data w); reflexivity. Qed.

Lemma forwarded_libc req pid data w :
  snd (forwarded req pid data w) = snd (ptrace req pid NULL data w).
Proof. step_kernel; reflexivity. Qed.

Lemma errno_ok_neg e : errno_ok e -> neg_int e = - e /\ - e < 0.
Proof.
  unfold errno_ok, MAX_ERRNO. intros He. split; [|lia].
  apply neg_int_small. unfold INT_MAX. lia.
Qed.

(** The result of [dbg_wait] by the kernel's answer. *)
Lemma dbg_wait_failed pid status flags w e :
  wait_result pid flags w = WaitFailed e ->
  dbg_wait pid status flags w
  = (neg_int e,
     set_errno e (served (Sys_waitpid pid status flags)
                    (snd (k_waitpid pid flags (w_kernel w))) w)).
Proof.
  unfold dbg_wait. step_kernel; intros Ho; inversion Ho; subst; reflexivity.
Qed.

Lemma dbg_wait_nochange pid status flags w :
  wait_result pid flags w = NoChange ->
  dbg_wait pid status flags w
  = (0, served (Sys_waitpid pid status flags)
          (snd (k_waitpid pid flags (w_kernel w))) w).
Proof.
  unfold dbg_wait. step_kernel; intros Ho; inversion Ho; subst; reflexivity.
Qed.

Lemma dbg_wait_changed pid status flags w child st :
  wait_result pid flags w = Changed child st ->
  0 < child <= INT_MAX ->
  dbg_wait pid status flags w
  = (child,
     let w' := served (Sys_waitpid pid status flags)
                 (snd (k_waitpid pid flags (w_kernel w))) w in
     if status =? NULL then w' else store_int status st w').
Proof.
  unfold dbg_wait. step_kernel; intros Ho Hc; inversion Ho; subst.
  destruct (Z.eqb_spec child (-1)) as [-> | _]; [lia|].
  cbn. rewrite to_int_id; [reflexivity|].
  unfold in_int, INT_MIN, INT_MAX in *. lia.
Qed.

Lemma dbg_wait_calls pid status flags w :
  w_calls (snd (dbg_wait pid status flags w))
  = w_calls w ++ [Sys_waitpid pid status flags].
Proof.
  unfold dbg_wait. step_kernel; try reflexivity.
  destruct (child =? -1), (status =? NULL); reflexivity.
Qed.

Lemma dbg_wait_libc pid status flags w :
  snd (dbg_wait pid status flags w) = snd (waitpid pid status flags w).
Proof.
  unfold dbg_wait. step_kernel; try reflexivity.
  destruct (child =? -1); reflexivity.
Qed.

Lemma dbg_wait_value pid status flags w :
  names_a_pid (inr (wait_result pid flags w)) ->
  fst (dbg_wait pid status flags w)
  = match wait_result pid flags w with
    | Changed child _ => to_int child
    | NoChange => 0
    | WaitFailed e => neg_int e
    end.
Proof.
  unfold dbg_wait. step_kernel; try reflexivity.
  intros Hpos. destruct (Z.eqb_spec child (-1)) as [-> | _]; [lia|].
  destruct (status =? NULL); reflexivity.
Qed.

Lemma forwarded_result req pid data w
    (Herr : forall e, ptrace_outcome req pid data w = Failed e -> errno_ok e) :
  match ptrace_outcome req pid data w with
  | Done => fst (forwarded req pid data w) = 0
  | Failed e =>
      fst (forwarded req pid data w) = - e
      /\ fst (forwarded req pid data w) < 0
      /\ w_errno (snd (forwarded req pid data w)) = e
  end.
Proof.
  unfold forwarded.
  destruct (ptrace_outcome req pid data w) as [|e]; cbn; [reflexivity|].
  destruct (errno_ok_neg e (Herr e eq_refl)) as [-> Hneg]. auto.
Qed.

Lemma to_ptr_roundtrip sig : in_int sig -> to_long (to_ptr (to_long sig)) = sig.
Proof.
  intros Hsig. rewrite (to_long_int sig Hsig). apply to_long_to_ptr, Hsig.
Qed.

Lemma to_ptr_nonneg sig : in_int sig -> 0 <= sig -> to_ptr (to_long sig) = sig.
Proof.
  intros Hsig Hpos. rewrite (to_long_int sig Hsig).
  unfold to_ptr, in_int, INT_MIN, INT_MAX in *. apply Z.mod_small. lia.
Qed.

(** ** The claims on the error convention *)

(** C1. For every pid, each of the four primitives ([dbg_attach],
    [dbg_detach], [dbg_interrupt], [dbg_continue]) returns 0 when the
    kernel serves the tracing request, and when the request fails it
    returns the negated error code, a strictly negative value, which is
    the code the failed call left in [errno]: the shim maps the code to
    nothing else. *)
Theorem primitive_returns_zero_or_negated_errno
    (p : primitive) (pid : Z) (w : world K)
    (Herr : forall e, prim_outcome p pid w = Failed e -> errno_ok e) :
  match prim_outcome p pid w with
  | Done => fst (prim_run p pid w) = 0
  | Failed e =>
      fst (prim_run p pid w) = - e
      /\ fst (prim_run p pid w) < 0
      /\ w_errno (snd (prim_run p pid w)) = e
  end.
Proof.
  rewrite prim_run_forwarded. unfold prim_outcome in *.
  apply forwarded_result, Herr.
Qed.

(** C2, as the code has it. [dbg_wait] does not retry: every failure of
    the wait, [EINTR] like any other, is returned to the caller as the
    negated error code after a single [waitpid] call, and the kernel has
    been asked once. *)
Theorem dbg_wait_error_not_retried
    (pid status flags : Z) (w : world K) (e : Z)
    (Hfail : wait_result pid flags w = WaitFailed e)
    (He : errno_ok e) :
  fst (dbg_wait pid status flags w) = - e
  /\ fst (dbg_wait pid status flags w) < 0
  /\ w_calls (snd (dbg_wait pid status flags w))
     = w_calls w ++ [Sys_waitpid pid status flags]
  /\ w_kernel (snd (dbg_wait pid status flags w))
     = snd (k_waitpid pid flags (w_kernel w)).
Proof.
  rewrite (dbg_wait_failed _ _ _ _ _ Hfail). cbn.
  destruct (errno_ok_neg e He) as [-> Hneg]. auto.
Qed.

(** C3, as the code has it. [dbg_detach] is not idempotent by itself: a
    second call in a row issues [PTRACE_DETACH] again, returns 0 only if
    the kernel serves that second request too, and otherwise returns the
    negated error code of the kernel (a process that is no longer traced,
    or has exited, makes Linux answer [ESRCH]). *)
Theorem dbg_detach_twice_forwards_both
    (pid : Z) (w : world K)
    (Herr : forall e,
        ptrace_outcome PTRACE_DETACH pid NULL (snd (dbg_detach pid w)) = Failed e ->
        errno_ok e) :
  let w1 := snd (dbg_detach pid w) in
  w_calls (snd (dbg_detach pid w1))
  = w_calls w ++ [Sys_ptrace PTRACE_DETACH pid NULL NULL;
                  Sys_ptrace PTRACE_DETACH pid NULL NULL]
  /\ match ptrace_outcome PTRACE_DETACH pid NULL w1 with
     | Done => fst (dbg_detach pid w1) = 0
     | Failed e => fst (dbg_detach pid w1) = - e /\ fst (dbg_detach pid w1) < 0
     end.
Proof.
  intros w1. split.
  - rewrite dbg_detach_run, forwarded_calls. unfold w1.
    rewrite dbg_detach_run, forwarded_calls, <- app_assoc. reflexivity.
  - rewrite dbg_detach_run.
    pose proof (forwarded_result PTRACE_DETACH pid NULL w1 Herr) as Hres.
    destruct (ptrace_outcome PTRACE_DETACH pid NULL w1); tauto.
Qed.

(** C4, as the code has it. [dbg_continue] keeps no state of the tracee
    and checks none: for every pid and signal, whatever state the target
    is in, it invokes the continue request of the kernel once, and it
    returns 0 if the kernel serves it and the negated error code of the
    kernel otherwise; the shim has no error of its own. *)
Theorem dbg_continue_always_invokes (pid sig : Z) (w : world K) :
  w_calls (snd (dbg_continue pid sig w))
  = w_calls w ++ [Sys_ptrace PTRACE_CONT pid NULL (to_ptr (to_long sig))]
  /\ w_kernel (snd (dbg_continue pid sig w))
     = snd (k_ptrace PTRACE_CONT pid NULL (to_ptr (to_long sig)) (w_kernel w))
  /\ fst (dbg_continue pid sig w)
     = match ptrace_outcome PTRACE_CONT pid (to_ptr (to_long sig)) w with
       | Done => 0
       | Failed e => neg_int e
       end.
Proof.
  rewrite dbg_continue_run, forwarded_calls, forwarded_kernel.
  repeat split. unfold forwarded.
  destruct (ptrace_outcome PTRACE_CONT pid (to_ptr (to_long sig)) w); reflexivity.
Qed.

(** ** The claims on the wait *)

(** C5. When the wait succeeds, [dbg_wait] returns the pid of the child
    whose state changed, a non-negative value, and the caller's status
    variable holds the raw wait status the kernel gave, the rest of the
    memory being as it was; when the wait fails, [dbg_wait] returns the
    negated error code. *)
Theorem dbg_wait_returns_child_and_status
    (pid status flags : Z) (w : world K)
    (Hok : wait_outcome_ok (wait_result pid flags w)) :
  match wait_result pid flags w with
  | Changed child st =>
      fst (dbg_wait pid status flags w) = child
      /\ 0 <= fst (dbg_wait pid status flags w)
      /\ w_mem (snd (dbg_wait pid status flags w))
         = (if status =? NULL then w_mem w else <[status := st]> (w_mem w))
  | NoChange =>
      0 <= fst (dbg_wait pid status flags w)
  | WaitFailed e =>
      fst (dbg_wait pid status flags w) = - e
  end.
Proof.
  destruct (wait_result pid flags w) as [child st| |e] eqn:Ho; cbn in Hok.
  - rewrite (dbg_wait_changed _ _ _ _ _ _ Ho Hok). cbn.
    repeat split; [lia|]. destruct (status =? NULL); reflexivity.
  - rewrite (dbg_wait_nochange _ _ _ _ Ho). cbn. lia.
  - rewrite (dbg_wait_failed _ _ _ _ _ Ho). cbn.
    apply (proj1 (errno_ok_neg e Hok)).
Qed.

(** C8. When [dbg_wait] is called with [WNOHANG] in the flags and no child
    has changed state, it returns 0; this value is non-negative, comes
    with no event (the memory, and so the status variable, is as it was),
    and differs from every error return of [dbg_wait], which is strictly
    negative. *)
Theorem dbg_wait_nohang_returns_zero
    (pid status flags : Z) (w : world K)
    (Hflag : Z.land flags WNOHANG = WNOHANG)
    (Hnone : wait_result pid flags w = NoChange) :
  fst (dbg_wait pid status flags w) = 0
  /\ 0 <= fst (dbg_wait pid status flags w)
  /\ w_mem (snd (dbg_wait pid status flags w)) = w_mem w
  /\ forall pid' status' flags' (w' : world K) e,
       wait_result pid' flags' w' = WaitFailed e ->
       errno_ok e ->
       fst (dbg_wait pid' status' flags' w') < 0
       /\ fst (dbg_wait pid' status' flags' w') <> fst (dbg_wait pid status flags w).
Proof.
  rewrite (dbg_wait_nochange _ _ _ _ Hnone). cbn.
  repeat split; [lia| |];
    rewrite (dbg_wait_failed _ _ _ _ _ H); cbn;
    destruct (errno_ok_neg e H0) as [-> Hneg]; lia.
Qed.

(** C10. Whenever [dbg_wait] returns an error, nothing has been written
    through the status pointer: the shim writes nothing of its own (the
    memory after [dbg_wait] is the memory that [waitpid] left), and on the
    failure of [waitpid] the memory, and in it the caller's status
    variable, is as it was before the call. *)
Theorem dbg_wait_error_leaves_status
    (pid status flags : Z) (w : world K) (e : Z)
    (Hfail : wait_result pid flags w = WaitFailed e) :
  w_mem (snd (dbg_wait pid status flags w))
  = w_mem (snd (waitpid pid status flags w))
  /\ w_mem (snd (dbg_wait pid status flags w)) = w_mem w
  /\ w_mem (snd (dbg_wait pid status flags w)) !! status = w_mem w !! status.
Proof.
  rewrite <- dbg_wait_libc.
  rewrite (dbg_wait_failed _ _ _ _ _ Hfail). cbn. auto.
Qed.

(** ** The claims on forwarding *)

(** C7. The shim is stateless: every call issues the one system call it
    stands for and nothing else, the process is left in the state in
    which that system call left it, and the result is the same for two
    calls with the same arguments that get the same answer from the
    kernel (a child being named by its pid), however the two worlds
    differ otherwise. *)
Theorem shim_call_stateless
    (c : shim_call) (w1 w2 : world K)
    (Hpid : names_a_pid (call_outcome c w1))
    (Hsame : call_outcome c w1 = call_outcome c w2) :
  fst (shim_run c w1) = fst (shim_run c w2)
  /\ w_calls (snd (shim_run c w1)) = w_calls w1 ++ [call_syscall c]
  /\ snd (shim_run c w1) = snd (libc_run c w1).
Proof.
  destruct c as [p pid | pid status flags];
    cbn [shim_run libc_run call_syscall call_outcome] in *.
  - rewrite !prim_run_forwarded, forwarded_calls, forwarded_libc.
    repeat split. injection Hsame as Hsame. unfold prim_outcome in Hsame.
    unfold forwarded. rewrite Hsame.
    destruct (ptrace_outcome (prim_request p) pid (prim_data p) w2); reflexivity.
  - rewrite dbg_wait_calls, dbg_wait_libc. repeat split.
    rewrite !dbg_wait_value by (rewrite <- ?Hsame; exact Hpid).
    injection Hsame as ->. reflexivity.
Qed.

(** C9. [dbg_continue] hands the signal number to the kernel as it is and
    unchecked: for every [int] value of [sig], zero, negative or beyond
    the signal numbers, the continue request is issued with [sig]
    converted to the pointer type as its data argument, a conversion that
    loses nothing (read back as an integer, the argument is [sig], and it
    is [sig] itself when [sig] is not negative). *)
Theorem dbg_continue_signal_verbatim
    (pid sig : Z) (w : world K)
    (Hsig : in_int sig) :
  exists data,
    w_calls (snd (dbg_continue pid sig w))
    = w_calls w ++ [Sys_ptrace PTRACE_CONT pid NULL data]
    /\ to_long data = sig
    /\ (0 <= sig -> data = sig)
    /\ (sig = 0 -> data = NULL).
Proof.
  exists (to_ptr (to_long sig)).
  rewrite dbg_continue_run, forwarded_calls.
  repeat split.
  - apply to_ptr_roundtrip, Hsig.
  - apply to_ptr_nonneg, Hsig.
  - intros ->. reflexivity.
Qed.

(** ** The claim on attaching *)


End Forwarding.

(** ** Runs *)

(** Scenario 6 of the specification: attaching to pid 9999, which does
    not exist. *)
Lemma primitive_returns_zero_or_negated_errno_witness :
  let w := Ref.boot ∅ in
  fst (dbg_attach 9999 w) = - ESRCH
  /\ fst (dbg_attach 9999 w) < 0
  /\ w_errno (snd (dbg_attach 9999 w)) = ESRCH.
Proof.
  assert (Herr : forall e,
             prim_outcome Attach 9999 (Ref.boot ∅) = Failed e -> errno_ok e).
  { intros e He. vm_compute in He. injection He as <-.
    unfold errno_ok, MAX_ERRNO. lia. }
  exact (primitive_returns_zero_or_negated_errno Attach 9999 (Ref.boot ∅) Herr).
Defined.

(** C2 fails on the code: a wait that the kernel interrupts returns
    [- EINTR] to the caller, and the event that a second [waitpid] would
    have fetched is still with the kernel. *)
Lemma dbg_wait_surfaces_EINTR :
  let w := Scripted.boot [Scripted.OnWait (WaitFailed EINTR);
                          Scripted.OnWait (Changed 1234 (Ref.W_STOPCODE Ref.SIGTRAP))] in
  fst (dbg_wait 1234 status_var 0 w) = - EINTR
  /\ w_calls (snd (dbg_wait 1234 status_var 0 w)) = [Sys_waitpid 1234 status_var 0]
  /\ w_kernel (snd (dbg_wait 1234 status_var 0 w))
     = [Scripted.OnWait (Changed 1234 (Ref.W_STOPCODE Ref.SIGTRAP))].
Proof. vm_compute. repeat split. Qed.

Lemma dbg_wait_error_not_retried_witness :
  let w := Scripted.boot [Scripted.OnWait (WaitFailed EINTR);
                          Scripted.OnWait (Changed 1234 (Ref.W_STOPCODE Ref.SIGTRAP))] in
  fst (dbg_wait 1234 status_var 0 w) = - EINTR
  /\ fst (dbg_wait 1234 status_var 0 w) < 0
  /\ w_calls (snd (dbg_wait 1234 status_var 0 w))
     = w_calls w ++ [Sys_waitpid 1234 status_var 0]
  /\ w_kernel (snd (dbg_wait 1234 status_var 0 w))
     = snd (k_waitpid 1234 0 (w_kernel w)).
Proof.
  intros w.
  apply (dbg_wait_error_not_retried 1234 status_var 0 w EINTR).
  - vm_compute. reflexivity.
  - unfold errno_ok, EINTR, MAX_ERRNO. lia.
Defined.

(** C3 fails on the code: the tracee 1234 is stopped, the first detach
    releases it and the second one is refused by the kernel; a detach of
    a process that is gone is refused as well. *)
Lemma dbg_detach_second_call_fails :
  let w := Ref.boot {[ 1234 := Ref.Stopped ]} in
  let w1 := snd (dbg_detach 1234 w) in
  fst (dbg_detach 1234 w) = 0
  /\ fst (dbg_detach 1234 w1) = - ESRCH
  /\ fst (dbg_detach 1234 w1) <> 0
  /\ fst (dbg_detach 1234 (Ref.boot ∅)) = - ESRCH.
Proof. vm_compute. repeat split. discriminate. Qed.

Lemma dbg_detach_twice_forwards_both_witness :
  let w := Ref.boot {[ 1234 := Ref.Stopped ]} in
  let w1 := snd (dbg_detach 1234 w) in
  w_calls (snd (dbg_detach 1234 w1))
  = w_calls w ++ [Sys_ptrace PTRACE_DETACH 1234 NULL NULL;
                  Sys_ptrace PTRACE_DETACH 1234 NULL NULL]
  /\ fst (dbg_detach 1234 w1) = - ESRCH /\ fst (dbg_detach 1234 w1) < 0.
Proof.
  intros w.
  assert (Herr : forall e,
             ptrace_outcome PTRACE_DETACH 1234 NULL (snd (dbg_detach 1234 w))
             = Failed e -> errno_ok e).
  { intros e He. vm_compute in He. injection He as <-.
    unfold errno_ok, MAX_ERRNO. lia. }
  exact (dbg_detach_twice_forwards_both 1234 w Herr).
Defined.

(** C4 fails on the code: on a target that is not traced (detached) and
    on one that is gone (exited), [dbg_continue] still issues the continue
    request, and what comes back is the error code of the kernel. *)
Lemma dbg_continue_invoked_when_detached :
  let detached := Ref.boot {[ 1234 := Ref.Untraced ]} in
  let exited := Ref.boot ∅ in
  w_calls (snd (dbg_continue 1234 0 detached)) = [Sys_ptrace PTRACE_CONT 1234 NULL 0]
  /\ fst (dbg_continue 1234 0 detached) = - ESRCH
  /\ w_calls (snd (dbg_continue 1234 0 exited)) = [Sys_ptrace PTRACE_CONT 1234 NULL 0]
  /\ fst (dbg_continue 1234 0 exited) = - ESRCH.
Proof. vm_compute. repeat split. Qed.

Lemma dbg_wait_returns_child_and_status_witness :
  let r := dbg_wait 1234 status_var 0 interrupted_1234 in
  fst r = 1234
  /\ 0 <= fst r
  /\ w_mem (snd r)
     = <[status_var := Ref.W_STOPCODE
                         (Z.lor Ref.SIGTRAP (Z.shiftl Ref.PTRACE_EVENT_STOP 8))]> ∅.
Proof.
  assert (Hok : wait_outcome_ok (wait_result 1234 0 interrupted_1234)).
  { vm_compute. split; [reflexivity | discriminate]. }
  exact (dbg_wait_returns_child_and_status 1234 status_var 0 interrupted_1234 Hok).
Defined.

(** A poll, then a blocking wait, right after the attach of scenario 5. *)
Lemma dbg_wait_nohang_returns_zero_witness :
  let w := snd (dbg_attach 1234 (Ref.boot {[ 1234 := Ref.Untraced ]})) in
  fst (dbg_wait 1234 status_var WNOHANG w) = 0
  /\ w_mem (snd (dbg_wait 1234 status_var WNOHANG w)) = ∅
  /\ fst (dbg_wait 1234 status_var 0 w) < 0.
Proof.
  intros w.
  assert (Hnone : wait_result 1234 WNOHANG w = NoChange)
    by (vm_compute; reflexivity).
  assert (Hfail : wait_result 1234 0 w = WaitFailed EINTR)
    by (vm_compute; reflexivity).
  assert (He : errno_ok EINTR) by (unfold errno_ok, EINTR, MAX_ERRNO; lia).
  destruct (dbg_wait_nohang_returns_zero 1234 status_var WNOHANG w
              eq_refl Hnone) as (Hzero & _ & Hmem & Herrors).
  split; [exact Hzero|]. split; [exact Hmem|].
  exact (proj1 (Herrors 1234 status_var 0 w EINTR Hfail He)).
Defined.

(** A wait on a process that is no child of the caller, the status
    variable holding 77. *)
Lemma dbg_wait_error_leaves_status_witness :
  let w := World 0 {[ status_var := 77 ]} (∅ : Ref.procs) [] in
  fst (dbg_wait 1234 status_var 0 w) = - ECHILD
  /\ w_mem (snd (dbg_wait 1234 status_var 0 w)) !! status_var = Some 77.
Proof.
  intros w. split; [vm_compute; reflexivity|].
  assert (Hfail : wait_result 1234 0 w = WaitFailed ECHILD)
    by (vm_compute; reflexivity).
  destruct (dbg_wait_error_leaves_status 1234 status_var 0 w ECHILD Hfail)
    as (_ & _ & ->).
  vm_compute. reflexivity.
Defined.

(** The same detach refused in two worlds that share nothing else. *)
Lemma shim_call_stateless_witness :
  let w1 := Ref.boot ∅ in
  let w2 := World 11 {[ status_var := 77 ]} ({[ 1234 := Ref.Seized ]} : Ref.procs)
              [Sys_waitpid 1234 status_var WNOHANG] in
  fst (dbg_detach 1234 w1) = fst (dbg_detach 1234 w2)
  /\ w_calls (snd (dbg_detach 1234 w1)) = [Sys_ptrace PTRACE_DETACH 1234 NULL NULL]
  /\ snd (dbg_detach 1234 w1) = snd (ptrace PTRACE_DETACH 1234 NULL NULL w1).
Proof.
  intros w1 w2.
  assert (Hsame : call_outcome (Prim Detach 1234) w1
                  = call_outcome (Prim Detach 1234) w2)
    by (vm_compute; reflexivity).
  exact (shim_call_stateless (Prim Detach 1234) w1 w2 I Hsame).
Defined.

(** A signal number that is no signal: -1 reaches the kernel as the
    pointer of all ones. *)
Lemma dbg_continue_signal_verbatim_witness :
  in_int (-1)
  /\ exists data,
       w_calls (snd (dbg_continue 1234 (-1) (Ref.boot {[ 1234 := Ref.Stopped ]})))
       = [Sys_ptrace PTRACE_CONT 1234 NULL data]
       /\ to_long data = -1
       /\ (0 <= -1 -> data = -1)
       /\ (-1 = 0 -> data = NULL).
Proof.
  assert (Hsig : in_int (-1)) by (unfold in_int, INT_MIN, INT_MAX; lia).
  split; [exact Hsig|].
  exact (dbg_continue_signal_verbatim 1234 (-1)
           (Ref.boot {[ 1234 := Ref.Stopped ]}) Hsig).
Defined.



(** ** Reading the results back, frames and sequences of calls *)

Section Further.

Context {K : Type} {kern : Kernel K}.

Lemma shim_run_libc (c : shim_call) (w : world K) :
  snd (shim_run c w) = snd (libc_run c w).
Proof.
  destruct c as [p pid | pid status flags]; cbn [shim_run libc_run].
  - rewrite prim_run_forwarded. apply forwarded_libc.
  - apply dbg_wait_libc.
Qed.

Lemma shim_run_calls (c : shim_call) (w : world K) :
  w_calls (snd (shim_run c w)) = w_calls w ++ [call_syscall c].
Proof.
  destruct c as [p pid | pid status flags]; cbn [shim_run call_syscall].
  - rewrite prim_run_forwarded. apply forwarded_calls.
  - apply dbg_wait_calls.
Qed.

Lemma run_calls_cons (c : shim_call) (cs : list shim_call) (w : world K) :
  run_calls (c :: cs) w
  = (fst (shim_run c w) :: fst (run_calls cs (snd (shim_run c w))),
     snd (run_calls cs (snd (shim_run c w)))).
Proof.
  cbn [run_calls]. unfold bind, ret.
  destruct (shim_run c w) as [r w1]. cbn [fst snd].
  destruct (run_calls cs w1) as [rs w2]. reflexivity.
Qed.

Lemma run_libc_cons (c : shim_call) (cs : list shim_call) (w : world K) :
  run_libc (c :: cs) w
  = (fst (libc_run c w) :: fst (run_libc cs (snd (libc_run c w))),
     snd (run_libc cs (snd (libc_run c w)))).
Proof.
  cbn [run_libc]. unfold bind, ret.
  destruct (libc_run c w) as [r w1]. cbn [fst snd].
  destruct (run_libc cs w1) as [rs w2]. reflexivity.
Qed.

(** The memory [dbg_wait] leaves, by the kernel's answer. *)
Lemma dbg_wait_mem (pid status flags : Z) (w : world K) :
  w_mem (snd (dbg_wait pid status flags w))
  = match wait_result pid flags w with
    | Changed _ st =>
        if status =? NULL then w_mem w else <[status := st]> (w_mem w)
    | _ => w_mem w
    end.
Proof.
  rewrite dbg_wait_libc. unfold waitpid, wait_result.
  destruct (k_waitpid pid flags (w_kernel w)) as [[child st| |e] k']; cbn;
    try reflexivity.
  destruct (status =? NULL); reflexivity.
Qed.

Lemma dbg_wait_mem_lookup (pid status flags : Z) (w : world K) (a : Z) :
  a <> status \/ status = NULL ->
  w_mem (snd (dbg_wait pid status flags w)) !! a = w_mem w !! a.
Proof.
  intros Ha. rewrite dbg_wait_mem.
  destruct (wait_result pid flags w) as [child st| |e]; try reflexivity.
  destruct (Z.eqb_spec status NULL) as [Hnull | Hnull]; [reflexivity|].
  destruct Ha as [Ha | Ha]; [|contradiction].
  apply lookup_insert_ne. congruence.
Qed.

Lemma shim_run_mem_lookup (c : shim_call) (w : world K) (a : Z) :
  ~ In a (status_cells [c]) ->
  w_mem (snd (shim_run c w)) !! a = w_mem w !! a.
Proof.
  destruct c as [p pid | pid status flags]; cbn [shim_run status_cells]; intros Ha.
  - rewrite prim_run_forwarded, forwarded_mem. reflexivity.
  - apply dbg_wait_mem_lookup.
    destruct (Z.eqb_spec status NULL) as [Hnull | Hnull]; [right; exact Hnull|].
    left. intros ->. apply Ha. left. reflexivity.
Qed.

(** X1. The result of a tracing primitive tells the caller what the
    kernel answered: it is 0 exactly when the request was served, it is
    [- e] exactly when the request failed with the error code [e], and it
    is never positive. *)
Theorem primitive_result_decodes
    (p : primitive) (pid : Z) (w : world K)
    (Herr : forall e, prim_outcome p pid w = Failed e -> errno_ok e) :
  (fst (prim_run p pid w) = 0 <-> prim_outcome p pid w = Done)
  /\ (forall e, errno_ok e ->
        (fst (prim_run p pid w) = - e <-> prim_outcome p pid w = Failed e))
  /\ fst (prim_run p pid w) <= 0.
Proof.
  rewrite prim_run_forwarded. unfold prim_outcome in *.
  pose proof (forwarded_result (prim_request p) pid (prim_data p) w Herr) as Hres.
  destruct (ptrace_outcome (prim_request p) pid (prim_data p) w) as [|e0].
  - rewrite Hres. split; [tauto|]. split; [|lia].
    intros e He. unfold errno_ok in He. split; [lia | discriminate].
  - destruct Hres as (Hval & Hneg & _). rewrite Hval in *.
    split; [split; [lia | discriminate]|]. split; [|lia].
    intros e He. split.
    + intros Heq. f_equal. lia.
    + intros Heq. injection Heq as ->. reflexivity.
Qed.

(** X2. The result of [dbg_wait] tells the caller what the kernel
    answered: it is positive exactly when a child was reported, and is
    then the pid of that child; it is 0 exactly when nothing has changed;
    it is negative exactly when the wait failed, and is then the negated
    error code, which [errno] holds. *)
Theorem dbg_wait_result_decodes
    (pid status flags : Z) (w : world K)
    (Hok : wait_outcome_ok (wait_result pid flags w)) :
  let r := fst (dbg_wait pid status flags w) in
  (0 < r <-> exists st, wait_result pid flags w = Changed r st)
  /\ (r = 0 <-> wait_result pid flags w = NoChange)
  /\ (r < 0 <-> wait_result pid flags w = WaitFailed (- r))
  /\ (r < 0 -> w_errno (snd (dbg_wait pid status flags w)) = - r).
Proof.
  destruct (wait_result pid flags w) as [child st| |e] eqn:Ho; cbn in Hok.
  - rewrite (dbg_wait_changed _ _ _ _ _ _ Ho Hok). cbn.
    repeat split; try discriminate; try lia.
    intros _. exists st. reflexivity.
  - rewrite (dbg_wait_nochange _ _ _ _ Ho). cbn.
    repeat split; try discriminate; try lia.
    intros [st Hst]. discriminate Hst.
  - rewrite (dbg_wait_failed _ _ _ _ _ Ho). cbn.
    destruct (errno_ok_neg e Hok) as [-> Hneg].
    repeat split; try discriminate; try lia.
    + intros [st Hst]. discriminate Hst.
    + intros _. f_equal. lia.
Qed.

(** X3. [dbg_wait] changes the memory at the status variable at most:
    every other cell is as it was, whatever the kernel answers, and with
    a null status pointer the whole memory is. *)
Theorem dbg_wait_frame
    (pid status flags : Z) (w : world K) (a : Z)
    (Ha : a <> status \/ status = NULL) :
  w_mem (snd (dbg_wait pid status flags w)) !! a = w_mem w !! a
  /\ (status = NULL -> w_mem (snd (dbg_wait pid status flags w)) = w_mem w).
Proof.
  split; [apply dbg_wait_mem_lookup, Ha|].
  intros ->. rewrite dbg_wait_mem.
  destruct (wait_result pid flags w); reflexivity.
Qed.

(** X4. The shim is transparent over any sequence of calls: the calls
    made one after the other issue their system calls in the same order,
    one each, and leave the process and the kernel in the state in which
    the same sequence of bare libc calls leaves them; there is one result
    for each call. *)
Theorem run_calls_transparent (cs : list shim_call) (w : world K) :
  snd (run_calls cs w) = snd (run_libc cs w)
  /\ w_calls (snd (run_calls cs w)) = w_calls w ++ map call_syscall cs
  /\ length (fst (run_calls cs w)) = length cs.
Proof.
  revert w. induction cs as [|c cs IH]; intros w.
  - cbn. rewrite app_nil_r. auto.
  - rewrite run_calls_cons, run_libc_cons. cbn [fst snd length map].
    destruct (IH (snd (shim_run c w))) as (Hworld & Hcalls & Hlen).
    rewrite Hcalls, Hlen, Hworld, shim_run_calls, shim_run_libc, <- app_assoc.
    auto.
Qed.

(** X5. Over any sequence of calls the shim writes nowhere but to the
    status variables handed to its waits: a cell that is none of them
    holds after the sequence what it held before. *)
Theorem run_calls_frame
    (cs : list shim_call) (w : world K) (a : Z)
    (Ha : ~ In a (status_cells cs)) :
  w_mem (snd (run_calls cs w)) !! a = w_mem w !! a.
Proof.
  revert w Ha. induction cs as [|c cs IH]; intros w Ha; [reflexivity|].
  rewrite run_calls_cons. cbn [snd].
  assert (Hc : ~ In a (status_cells [c]) /\ ~ In a (status_cells cs)).
  { destruct c as [p pid | pid status flags]; cbn [status_cells] in *.
    - split; [intros []|exact Ha].
    - destruct (status =? NULL); cbn [In] in *; tauto. }
  rewrite (IH _ (proj2 Hc)). apply shim_run_mem_lookup, Hc.
Qed.

(** X6. [dbg_continue] sign-extends the signal number: a negative [sig]
    reaches the kernel as the address [2 ^ 64 + sig], in the upper half of
    the 64-bit range, not as its 32-bit pattern. *)
Theorem dbg_continue_sign_extends
    (pid sig : Z) (w : world K)
    (Hsig : in_int sig) (Hneg : sig < 0) :
  w_calls (snd (dbg_continue pid sig w))
  = w_calls w ++ [Sys_ptrace PTRACE_CONT pid NULL (2 ^ 64 + sig)]
  /\ 2 ^ 63 <= 2 ^ 64 + sig < 2 ^ 64.
Proof.
  rewrite dbg_continue_run, forwarded_calls, (to_long_int sig Hsig).
  unfold in_int, INT_MIN, INT_MAX in Hsig.
  replace (to_ptr sig) with (2 ^ 64 + sig); [split; [reflexivity | lia]|].
  unfold to_ptr. apply Z.mod_unique with (q := -1); lia.
Qed.

(** X7. [dbg_continue] conflates no two signal numbers: calls with
    different [int] values of [sig] issue different requests. *)
Theorem dbg_continue_signals_distinct
    (pid s1 s2 : Z) (w : world K)
    (H1 : in_int s1) (H2 : in_int s2) (Hdiff : s1 <> s2) :
  w_calls (snd (dbg_continue pid s1 w)) <> w_calls (snd (dbg_continue pid s2 w)).
Proof.
  rewrite !dbg_continue_run, !forwarded_calls. intros Hsame.
  apply app_inv_head in Hsame. injection Hsame as Hdata.
  apply Hdiff.
  rewrite <- (to_ptr_roundtrip s1 H1), <- (to_ptr_roundtrip s2 H2), Hdata.
  reflexivity.
Qed.

End Further.

(** ** Runs for the further properties *)

(** A detach of a tracee that is running is refused. *)
Lemma primitive_result_decodes_witness :
  let w := Ref.boot {[ 1234 := Ref.Seized ]} in
  fst (dbg_detach 1234 w) = - ESRCH
  /\ prim_outcome Detach 1234 w = Failed ESRCH
  /\ prim_outcome Detach 1234 w <> Done.
Proof.
  intros w.
  assert (Herr : forall e, prim_outcome Detach 1234 w = Failed e -> errno_ok e).
  { intros e He. vm_compute in He. injection He as <-.
    unfold errno_ok, MAX_ERRNO. lia. }
  assert (He : errno_ok ESRCH) by (unfold errno_ok, ESRCH, MAX_ERRNO; lia).
  assert (Hval : fst (prim_run Detach 1234 w) = - ESRCH)
    by (vm_compute; reflexivity).
  destruct (primitive_result_decodes Detach 1234 w Herr) as (Hzero & Hcode & _).
  split; [exact Hval|]. split.
  - apply (Hcode ESRCH He), Hval.
  - intros Hdone. apply Hzero in Hdone. rewrite Hval in Hdone. discriminate Hdone.
Defined.

(** The wait of scenario 5: the positive result is the child the kernel
    reported. *)
Lemma dbg_wait_result_decodes_witness :
  exists st,
    wait_result 1234 0 interrupted_1234
    = Changed (fst (dbg_wait 1234 status_var 0 interrupted_1234)) st.
Proof.
  assert (Hok : wait_outcome_ok (wait_result 1234 0 interrupted_1234)).
  { vm_compute. split; [reflexivity | discriminate]. }
  destruct (dbg_wait_result_decodes 1234 status_var 0 interrupted_1234 Hok)
    as (Hpos & _).
  apply Hpos. vm_compute. reflexivity.
Defined.

(** The wait of scenario 5 writes the status variable and not the cell
    after it. *)
Lemma dbg_wait_frame_witness :
  let r := dbg_wait 1234 status_var 0 neighbour_77 in
  w_mem (snd r) !! (status_var + 4) = Some 77
  /\ w_mem (snd r) !! status_var <> None.
Proof.
  assert (Ha : status_var + 4 <> status_var \/ status_var = NULL)
    by (left; unfold status_var; lia).
  destruct (dbg_wait_frame 1234 status_var 0 neighbour_77 (status_var + 4) Ha)
    as (Hcell & _).
  split.
  - cbv zeta. rewrite Hcell. vm_compute. reflexivity.
  - vm_compute. discriminate.
Defined.

(** Scenario 5 as a whole leaves the cell after the status variable. *)
Lemma run_calls_frame_witness :
  let w := World 0 {[ status_var + 4 := 77 ]}
             ({[ 1234 := Ref.Untraced ]} : Ref.procs) [] in
  w_mem (snd (run_calls scenario_5 w)) !! (status_var + 4) = Some 77.
Proof.
  intros w.
  assert (Ha : ~ In (status_var + 4) (status_cells scenario_5)).
  { vm_compute. intros [Heq | []]. discriminate Heq. }
  rewrite (run_calls_frame scenario_5 w (status_var + 4) Ha).
  vm_compute. reflexivity.
Defined.

(** The signal number -1 reaches the kernel as the address of all ones. *)
Lemma dbg_continue_sign_extends_witness :
  w_calls (snd (dbg_continue 1234 (-1) (Ref.boot {[ 1234 := Ref.Stopped ]})))
  = [Sys_ptrace PTRACE_CONT 1234 NULL 0xffffffffffffffff].
Proof.
  assert (Hsig : in_int (-1)) by (unfold in_int, INT_MIN, INT_MAX; lia).
  assert (Hneg : -1 < 0) by lia.
  exact (proj1 (dbg_continue_sign_extends 1234 (-1)
                  (Ref.boot {[ 1234 := Ref.Stopped ]}) Hsig Hneg)).
Defined.

(** Resuming with no signal and resuming with the signal 19. *)
Lemma dbg_continue_signals_distinct_witness :
  let w := Ref.boot {[ 1234 := Ref.Stopped ]} in
  w_calls (snd (dbg_continue 1234 0 w)) <> w_calls (snd (dbg_continue 1234 19 w)).
Proof.
  intros w.
  assert (H0 : in_int 0) by (unfold in_int, INT_MIN, INT_MAX; lia).
  assert (H19 : in_int 19) by (unfold in_int, INT_MIN, INT_MAX; lia).
  assert (Hdiff : 0 <> 19) by lia.
  exact (dbg_continue_signals_distinct 1234 0 19 w H0 H19 Hdiff).
Defined.
